(** * VssTransactionThawTimeoutException (AlphaVSS 0.8)

    A shallow embedding of
    [Src/Exceptions/VssTransactionThawTimeoutException.cpp]: the build-time
    choice of the failure code and the four constructors of the managed
    exception class, over a small model of the managed heap. The base class
    [VssException] is an interface here: the file only calls it. *)

From Stdlib Require Import ZArith String.
From stdpp Require Import base option gmap strings.

Local Open Scope string_scope.
Local Open Scope Z_scope.

(** ** Native result codes *)

(** [HRESULT] is a 32-bit signed integer ([typedef long HRESULT]). *)
Definition HRESULT := Z.

(** The cast [(HRESULT)x] of a 32-bit pattern: reduction modulo 2^32 into
    the signed range. *)
Definition to_HRESULT (bits : Z) : HRESULT :=
  let u := bits mod 2 ^ 32 in
  if u <? 2 ^ 31 then u else u - 2 ^ 32.

(** [E_UNEXPECTED], the platform's catch-all failure (winerror.h). *)
Definition E_UNEXPECTED : HRESULT := to_HRESULT 0x8000FFFF.

(** ** Build configuration

    The macros the translation unit reads but does not define: the target
    selection of the project's configuration header, and the value the
    platform SDK gives the failure code on the targets that have it. *)
Record BuildConfig := {
  ALPHAVSS_TARGET : Z;
  ALPHAVSS_TARGET_WIN2008 : Z;
  sdk_VSS_E_TRANSACTION_THAW_TIMEOUT : HRESULT
}.

(** What the name [VSS_E_TRANSACTION_THAW_TIMEOUT] expands to inside the
    constructors of this translation unit:
<<
    #if ALPHAVSS_TARGET < ALPHAVSS_TARGET_WIN2008
    #define VSS_E_TRANSACTION_THAW_TIMEOUT E_UNEXPECTED
    #endif
>>
    (The [#undef] that closes the file names [VSS_E_REBOOT_REQUIRED]; it
    comes after the constructors and leaves the expansion as it is.) *)
Definition VSS_E_TRANSACTION_THAW_TIMEOUT (cfg : BuildConfig) : HRESULT :=
  if ALPHAVSS_TARGET cfg <? ALPHAVSS_TARGET_WIN2008 cfg
  then E_UNEXPECTED
  else sdk_VSS_E_TRANSACTION_THAW_TIMEOUT cfg.

(** ** Managed objects *)

(** A handle ([T ^]) is a location of the managed heap; [nullptr] is [None]
    at the places that hold one. *)
Definition loc := positive.

(** [String ^]: a possibly null handle to an immutable text. *)
Definition String := option string.

(** The attributes the exception hierarchy shares. *)
Record Exception := mkException {
  HResult : HRESULT;
  Message : String;
  InnerException : option loc
}.

(** The fields of the live objects. *)
Abbreviation fields := (gmap loc Exception).

(** The managed heap: the run-time class of each object, which allocation
    sets and no constructor can write, and the objects' fields. *)
Record heap := mkHeap {
  types : gmap loc string;
  objects : fields
}.

(** The state a [SerializationInfo] carries for an exception. *)
Record SerializationInfo := mkSerializationInfo {
  si_HResult : HRESULT;
  si_Message : String;
  si_InnerException : option loc
}.

(** [StreamingContext] is a value type: a state flag and an optional
    caller-defined context object. *)
Record StreamingContext := mkStreamingContext {
  sc_State : Z;
  sc_Context : option loc
}.

(** A constructor runs on the object at [this] and may write fields;
    [None] stands for a constructor that throws. *)
Definition constructor := loc → fields → option fields.

(** ** The base class, as this file uses it

    The three constructors of [VssException] that the member-initializer
    lists below call. *)
Record VssExceptionBase := {
  VssException_hr_message : HRESULT → String → constructor;
  VssException_message_inner : String → option loc → constructor;
  VssException_info_context :
    option SerializationInfo → StreamingContext → constructor
}.

(** ** Allocation

    [gcnew T(args)]: a zero-initialised object of run-time class [T] is
    allocated at a fresh location, then the constructor runs on it. The
    handle is returned only if the constructor does not throw. *)
Definition zero_object : Exception :=
  {| HResult := 0; Message := None; InnerException := None |}.

Definition fresh_loc (h : heap) : loc :=
  fresh (dom (types h) ∪ dom (objects h)).

Definition gcnew (cls : string) (ctor : constructor) (h : heap)
  : option (loc * heap) :=
  let this := fresh_loc h in
  F ← ctor this (<[this := zero_object]> (objects h));
  Some (this, {| types := <[this := cls]> (types h); objects := F |}).

(** ** The class of this file *)

Module VssTransactionThawTimeoutException.

(** [namespace Alphaleonis { namespace Win32 { namespace Vss]. *)
Definition class_name : string :=
  "Alphaleonis.Win32.Vss.VssTransactionThawTimeoutException".

Section Constructors.
Variable B : VssExceptionBase.
Variable cfg : BuildConfig.

(** [VssTransactionThawTimeoutException()] *)
Definition ctor : constructor := fun this F =>
  F' ← VssException_hr_message B (VSS_E_TRANSACTION_THAW_TIMEOUT cfg)
         (Some "The system was unable to thaw the Distributed Transaction Coordinator (DTC) or the Kernel Transaction Manager (KTM).")
         this F;
  Some F'.

(** [VssTransactionThawTimeoutException(String ^ message)] *)
Definition ctor_message (message : String) : constructor := fun this F =>
  F' ← VssException_hr_message B (VSS_E_TRANSACTION_THAW_TIMEOUT cfg)
         message this F;
  Some F'.

(** [VssTransactionThawTimeoutException(String ^ message,
    Exception ^ innerException)] *)
Definition ctor_message_inner (message : String)
    (innerException : option loc) : constructor := fun this F =>
  F' ← VssException_message_inner B message innerException this F;
  Some F'.

(** [VssTransactionThawTimeoutException(SerializationInfo ^ info,
    StreamingContext context)] *)
Definition ctor_info_context (info : option SerializationInfo)
    (context : StreamingContext) : constructor := fun this F =>
  F' ← VssException_info_context B info context this F;
  Some F'.
End Constructors.

(** The four ways to obtain an instance, with their arguments. *)
Inductive construction :=
| Default
| WithMessage (message : String)
| WithMessageInner (message : String) (innerException : option loc)
| FromSerialized (info : option SerializationInfo)
    (context : StreamingContext).

Definition ctor_of (B : VssExceptionBase) (cfg : BuildConfig)
    (c : construction) : constructor :=
  match c with
  | Default => ctor B cfg
  | WithMessage m => ctor_message B cfg m
  | WithMessageInner m e => ctor_message_inner B m e
  | FromSerialized i ctx => ctor_info_context B i ctx
  end.

(** [gcnew VssTransactionThawTimeoutException(...)] *)
Definition new (B : VssExceptionBase) (cfg : BuildConfig)
    (c : construction) (h : heap) : option (loc * heap) :=
  gcnew class_name (ctor_of B cfg c) h.

(** What a [catch] clause or a cast for this class tests on the object
    behind a handle. *)
Definition is_instance (h : heap) (l : loc) : bool :=
  bool_decide (types h !! l = Some class_name).

End VssTransactionThawTimeoutException.

(** ** What the file relies on from its base class

    The source of [VssException] is not among the files of this unit. The
    predicates below state, for an arbitrary base class, what the
    specification says of it; the properties of this file's constructors
    are then proved for every base class that meets the ones they name. *)

(** Modelled from the spec: the contract of the absent constructor
    [VssException(HRESULT, String ^)]: the base carries the code and the
    message it is constructed with. *)
Definition stores_code_and_message (B : VssExceptionBase) : Prop :=
  ∀ hr message this (F : fields), is_Some (F !! this) →
    ∃ F' o,
      VssException_hr_message B hr message this F = Some F'
      ∧ F' !! this = Some o
      ∧ HResult o = hr
      ∧ Message o = message.

(** Modelled from the spec: the contract of the absent constructor
    [VssException(String ^, Exception ^)]: the base carries the message,
    and retains the cause reference without touching the cause or any other
    object. *)
Definition stores_message_and_cause (B : VssExceptionBase) : Prop :=
  ∀ message inner this (F : fields), is_Some (F !! this) →
    ∃ F' o,
      VssException_message_inner B message inner this F = Some F'
      ∧ F' !! this = Some o
      ∧ Message o = message
      ∧ InnerException o = inner
      ∧ ∀ l, l ≠ this → F' !! l = F !! l.

(** Modelled from the spec: the base class performs no validation that
    rejects an input ("text and optional cause/context may be null"). *)
Definition never_throws (B : VssExceptionBase) : Prop :=
  (∀ hr message this F, is_Some (VssException_hr_message B hr message this F))
  ∧ (∀ message inner this F,
       is_Some (VssException_message_inner B message inner this F))
  ∧ (∀ info context this F,
       is_Some (VssException_info_context B info context this F)).

(** ** A base class after the specification *)
Section SpecBase.
(** The fixed code of the leaf class being constructed. *)
Variable fixed : HRESULT.

(** Modelled from the spec: the constructor [VssException(HRESULT,
    String ^)], absent from the sources. It stores the code and the
    message it is given; no cause is attached. *)
Definition spec_hr_message (hr : HRESULT) (message : String)
  : constructor := fun this F =>
  Some (alter (fun _ => mkException hr message None) this F).

(** Modelled from the spec: the constructor [VssException(String ^,
    Exception ^)], absent from the sources. It stores the message and
    retains the cause reference; "the fixed code is still enforced by the
    base regardless of what code the cause carried". *)
Definition spec_message_inner (message : String) (inner : option loc)
  : constructor := fun this F =>
  Some (alter (fun _ => mkException fixed message inner) this F).

(** Modelled from the spec: the constructor [VssException(
    SerializationInfo ^, StreamingContext)], absent from the sources. It
    restores the message and cause of the serialized instance, "with the
    same fixed code semantics re-asserted by the base"; with no container
    there is nothing to restore. *)
Definition spec_info_context (info : option SerializationInfo)
    (context : StreamingContext) : constructor := fun this F =>
  Some (alter (fun o =>
          match info with
          | Some i =>
              mkException fixed (si_Message i) (si_InnerException i)
          | None => mkException fixed (Message o) (InnerException o)
          end) this F).

(** Modelled from the spec: the base class [VssException] as the three
    constructors above. *)
Definition VssException_spec : VssExceptionBase :=
  {| VssException_hr_message := spec_hr_message;
     VssException_message_inner := spec_message_inner;
     VssException_info_context := spec_info_context |}.
End SpecBase.

(** Modelled from the spec: the base class as this leaf sees it, enforcing
    the code the leaf is bound to in the given build. *)
Definition VssException_of (cfg : BuildConfig) : VssExceptionBase :=
  VssException_spec (VSS_E_TRANSACTION_THAW_TIMEOUT cfg).

(** Modelled from the spec: serialization of an instance (the
    [GetObjectData] side, absent from the sources): the container receives
    the instance's code, message and cause. *)
Definition serialize (o : Exception) : SerializationInfo :=
  {| si_HResult := HResult o;
     si_Message := Message o;
     si_InnerException := InnerException o |}.

(** ** A base class that stores what it is handed *)

(** Modelled from the spec: the constructor [VssException(String ^,
    Exception ^)], absent from the sources, as a base that "carries the
    failure code and human-readable message" and the cause: it stores the
    message and the cause it is handed. It is handed no code, and leaves
    the code field as allocation left it. *)
Definition storing_message_inner (message : String) (inner : option loc)
  : constructor := fun this F =>
  Some (alter (fun o => mkException (HResult o) message inner) this F).

(** Modelled from the spec: the constructor [VssException(
    SerializationInfo ^, StreamingContext)], absent from the sources:
    reconstruction "produces an instance equivalent to the one originally
    serialized", so the code, message and cause come back from the
    container; with no container there is nothing to restore. *)
Definition storing_info_context (info : option SerializationInfo)
    (context : StreamingContext) : constructor := fun this F =>
  Some (alter (fun o =>
          match info with
          | Some i =>
              mkException (si_HResult i) (si_Message i) (si_InnerException i)
          | None => o
          end) this F).

(** Modelled from the spec: the base class [VssException] as a store of
    what its constructors are handed. *)
Definition VssException_storing : VssExceptionBase :=
  {| VssException_hr_message := spec_hr_message;
     VssException_message_inner := storing_message_inner;
     VssException_info_context := storing_info_context |}.

(** ** Concrete builds, objects and heaps *)

(** Two reference configurations: a target older than the Win2008 class,
    and one of that class with the SDK's own value of the code. *)
Definition old_target : BuildConfig :=
  {| ALPHAVSS_TARGET := 0; ALPHAVSS_TARGET_WIN2008 := 2;
     sdk_VSS_E_TRANSACTION_THAW_TIMEOUT := to_HRESULT 0x80042317 |}.

Definition win2008_target : BuildConfig :=
  {| ALPHAVSS_TARGET := 2; ALPHAVSS_TARGET_WIN2008 := 2;
     sdk_VSS_E_TRANSACTION_THAW_TIMEOUT := to_HRESULT 0x80042317 |}.

(** A lower-level error to wrap. *)
Definition someOtherError : Exception :=
  {| HResult := to_HRESULT 0x80131509;
     Message := Some "Operation is not valid due to the current state of the object.";
     InnerException := None |}.

(** A heap holding that error at handle 1 and, at handle 2, an instance of
    a sibling class of the family, bound to another code. *)
Definition heap_before : heap :=
  {| types :=
       <[ 2%positive := "Alphaleonis.Win32.Vss.VssRebootRequiredException" ]>
         {[ 1%positive := "System.InvalidOperationException" ]};
     objects :=
       <[ 2%positive :=
            mkException (to_HRESULT 0x80042327)
              (Some "A reboot is required.") None ]>
         {[ 1%positive := someOtherError ]} |}.

(** The heap after wrapping the error on a Win2008-class build. *)
Definition heap_wrapped : heap :=
  {| types :=
       <[ 3%positive := VssTransactionThawTimeoutException.class_name ]>
         (types heap_before);
     objects :=
       <[ 3%positive :=
            mkException (to_HRESULT 0x80042317) (Some "custom msg")
              (Some 1%positive) ]>
         (objects heap_before) |}.

(** ** The preprocessor directives of the file

    Besides the class, the translation unit holds two conditional groups on
    the target, one before the namespace and one after it. *)

(** The object-like macros in force: name and replacement text. *)
Abbreviation macro_table := (gmap string string).

Inductive directive :=
| pp_define (name replacement : string)
| pp_undef (name : string).

(** [#define] binds the name (the compiler takes the newer text when the
    name is bound already); [#undef] unbinds it, bound or not. *)
Definition run_directive (M : macro_table) (d : directive) : macro_table :=
  match d with
  | pp_define name replacement => <[name := replacement]> M
  | pp_undef name => delete name M
  end.

(** [#if ALPHAVSS_TARGET < ALPHAVSS_TARGET_WIN2008 ... #endif] *)
Definition if_older_target (cfg : BuildConfig) (group : list directive)
    (M : macro_table) : macro_table :=
  if ALPHAVSS_TARGET cfg <? ALPHAVSS_TARGET_WIN2008 cfg
  then foldl run_directive M group
  else M.

(** The group that opens the file, in force where the constructors are
    compiled. *)
Definition macros_at_constructors (cfg : BuildConfig) (M : macro_table)
  : macro_table :=
  if_older_target cfg
    [pp_define "VSS_E_TRANSACTION_THAW_TIMEOUT" "E_UNEXPECTED"] M.

(** The whole file: the opening group, then the group that closes it. *)
Definition macros_at_end_of_file (cfg : BuildConfig) (M : macro_table)
  : macro_table :=
  if_older_target cfg [pp_undef "VSS_E_REBOOT_REQUIRED"]
    (macros_at_constructors cfg M).

(** The code of the instance a construction returned, if it returned one. *)
Definition code_of (r : option (loc * heap)) : option HRESULT :=
  match r with
  | Some (this, h) => HResult <$> objects h !! this
  | None => None
  end.

(** The base constructor a construction delegates to, run on the
    zero-initialised object [gcnew] allocated for it. *)
Definition base_part (B : VssExceptionBase) (cfg : BuildConfig)
    (c : VssTransactionThawTimeoutException.construction) (h : heap)
  : option fields :=
  let this := fresh_loc h in
  let F := <[this := zero_object]> (objects h) in
  match c with
  | VssTransactionThawTimeoutException.Default =>
      VssException_hr_message B (VSS_E_TRANSACTION_THAW_TIMEOUT cfg)
        (Some "The system was unable to thaw the Distributed Transaction Coordinator (DTC) or the Kernel Transaction Manager (KTM).")
        this F
  | VssTransactionThawTimeoutException.WithMessage message =>
      VssException_hr_message B (VSS_E_TRANSACTION_THAW_TIMEOUT cfg)
        message this F
  | VssTransactionThawTimeoutException.WithMessageInner message inner =>
      VssException_message_inner B message inner this F
  | VssTransactionThawTimeoutException.FromSerialized info context =>
      VssException_info_context B info context this F
  end.

(** A macro table as an include might leave it on a Win2008-class SDK, for
    concrete runs. *)
Definition sdk_macros : macro_table :=
  <[ "VSS_E_REBOOT_REQUIRED" := "_HRESULT_TYPEDEF_(0x80042327L)" ]>
    (<[ "VSS_E_TRANSACTION_THAW_TIMEOUT" := "_HRESULT_TYPEDEF_(0x80042317L)" ]>
       {[ "E_UNEXPECTED" := "_HRESULT_TYPEDEF_(0x8000FFFFL)" ]}).

(** * Properties *)

Import VssTransactionThawTimeoutException.

(** ** An empty constructor body adds nothing to the base's outcome *)

Lemma empty_body (r : option fields) : (F' ← r; Some F') = r.
Proof. by destruct r. Qed.

Lemma ctor_delegates B cfg this F :
  ctor B cfg this F =
  VssException_hr_message B (VSS_E_TRANSACTION_THAW_TIMEOUT cfg)
    (Some "The system was unable to thaw the Distributed Transaction Coordinator (DTC) or the Kernel Transaction Manager (KTM).")
    this F.
Proof. apply empty_body. Qed.

Lemma ctor_message_delegates B cfg message this F :
  ctor_message B cfg message this F =
  VssException_hr_message B (VSS_E_TRANSACTION_THAW_TIMEOUT cfg)
    message this F.
Proof. apply empty_body. Qed.

Lemma ctor_message_inner_delegates B message inner this F :
  ctor_message_inner B message inner this F =
  VssException_message_inner B message inner this F.
Proof. apply empty_body. Qed.

Lemma ctor_info_context_delegates B info context this F :
  ctor_info_context B info context this F =
  VssException_info_context B info context this F.
Proof. apply empty_body. Qed.

(** Whatever the base class does, a constructor of this file throws only if
    the base constructor it delegates to throws on the same object. *)
Lemma no_failure_of_its_own B cfg c this F :
  ctor_of B cfg c this F = None →
  (∃ hr m, VssException_hr_message B hr m this F = None)
  ∨ (∃ m e, VssException_message_inner B m e this F = None)
  ∨ (∃ i ctx, VssException_info_context B i ctx this F = None).
Proof.
  destruct c; cbn [ctor_of].
  - rewrite ctor_delegates. eauto.
  - rewrite ctor_message_delegates. eauto.
  - rewrite ctor_message_inner_delegates. eauto.
  - rewrite ctor_info_context_delegates. eauto 6.
Qed.

(** ** Allocation *)

Lemma fresh_loc_objects h : objects h !! fresh_loc h = None.
Proof.
  apply not_elem_of_dom. intros Hin.
  apply (is_fresh (dom (types h) ∪ dom (objects h))).
  apply elem_of_union. by right.
Qed.

Lemma fresh_loc_types h : types h !! fresh_loc h = None.
Proof.
  apply not_elem_of_dom. intros Hin.
  apply (is_fresh (dom (types h) ∪ dom (objects h))).
  apply elem_of_union. by left.
Qed.

Lemma gcnew_Some cls k h this h' :
  gcnew cls k h = Some (this, h') →
  this = fresh_loc h
  ∧ types h' = <[this := cls]> (types h)
  ∧ k this (<[this := zero_object]> (objects h)) = Some (objects h').
Proof.
  unfold gcnew.
  destruct (k (fresh_loc h) (<[fresh_loc h := zero_object]> (objects h)))
    as [F|] eqn:Hk; simpl; [|done].
  by intros [= <- <-].
Qed.

Lemma gcnew_run cls k h F :
  k (fresh_loc h) (<[fresh_loc h := zero_object]> (objects h)) = Some F →
  gcnew cls k h
  = Some (fresh_loc h,
          {| types := <[fresh_loc h := cls]> (types h); objects := F |}).
Proof. unfold gcnew. by intros ->. Qed.

(** ** The base class after the specification meets the contracts *)

Lemma spec_stores_code_and_message fixed :
  stores_code_and_message (VssException_spec fixed).
Proof.
  intros hr message this F [o Ho]. simpl. unfold spec_hr_message.
  eexists _, _. split; [reflexivity|].
  rewrite lookup_alter_eq, Ho. done.
Qed.

Lemma spec_stores_message_and_cause fixed :
  stores_message_and_cause (VssException_spec fixed).
Proof.
  intros message inner this F [o Ho]. simpl. unfold spec_message_inner.
  eexists _, _. split; [reflexivity|].
  rewrite lookup_alter_eq, Ho. repeat split.
  intros l Hl. by rewrite lookup_alter_ne.
Qed.

Lemma spec_never_throws fixed : never_throws (VssException_spec fixed).
Proof. repeat split; intros; simpl; eauto. Qed.

(** The object under construction is live when its constructor runs. *)
Lemma this_is_live h :
  is_Some (<[fresh_loc h := zero_object]> (objects h) !! fresh_loc h).
Proof. rewrite lookup_insert_eq. by eexists. Qed.

(** ** The fixed code *)

(** C2. On a target older than the Windows 2008 class the name
    [VSS_E_TRANSACTION_THAW_TIMEOUT] expands to [E_UNEXPECTED] (0x8000FFFF
    as a signed 32-bit value), whatever the SDK says; the expansion depends
    on the build configuration alone, so each constructor that names the
    constant hands that one value to the base class, for every base class,
    argument, object and heap. *)
Theorem fallback_on_older_targets cfg :
  ALPHAVSS_TARGET cfg < ALPHAVSS_TARGET_WIN2008 cfg →
  VSS_E_TRANSACTION_THAW_TIMEOUT cfg = E_UNEXPECTED
  ∧ E_UNEXPECTED = 0x8000FFFF - 2 ^ 32
  ∧ (∀ B this F,
       ctor B cfg this F =
       VssException_hr_message B E_UNEXPECTED
         (Some "The system was unable to thaw the Distributed Transaction Coordinator (DTC) or the Kernel Transaction Manager (KTM).")
         this F)
  ∧ (∀ B message this F,
       ctor_message B cfg message this F =
       VssException_hr_message B E_UNEXPECTED message this F).
Proof.
  intros Hold.
  assert (VSS_E_TRANSACTION_THAW_TIMEOUT cfg = E_UNEXPECTED) as Hmacro.
  { unfold VSS_E_TRANSACTION_THAW_TIMEOUT.
    destruct (Z.ltb_spec (ALPHAVSS_TARGET cfg) (ALPHAVSS_TARGET_WIN2008 cfg));
      [reflexivity | lia]. }
  split; [exact Hmacro|]. split; [reflexivity|]. split.
  - intros B this F. by rewrite ctor_delegates, Hmacro.
  - intros B message this F. by rewrite ctor_message_delegates, Hmacro.
Qed.

Lemma fallback_on_older_targets_witness :
  VSS_E_TRANSACTION_THAW_TIMEOUT old_target = E_UNEXPECTED
  ∧ E_UNEXPECTED = 0x8000FFFF - 2 ^ 32
  ∧ (∀ B this F,
       ctor B old_target this F =
       VssException_hr_message B E_UNEXPECTED
         (Some "The system was unable to thaw the Distributed Transaction Coordinator (DTC) or the Kernel Transaction Manager (KTM).")
         this F)
  ∧ (∀ B message this F,
       ctor_message B old_target message this F =
       VssException_hr_message B E_UNEXPECTED message this F).
Proof. apply (fallback_on_older_targets old_target). simpl. lia. Defined.

(** ** Message and cause *)

(** C5. Over a base class that carries the code and message it is handed,
    default construction yields an instance whose message is exactly the
    fixed description of the failure and whose code is the fixed constant
    of the build. *)
Theorem default_message_and_code B cfg h :
  stores_code_and_message B →
  ∃ this h' o,
    new B cfg Default h = Some (this, h')
    ∧ objects h' !! this = Some o
    ∧ Message o =
        Some "The system was unable to thaw the Distributed Transaction Coordinator (DTC) or the Kernel Transaction Manager (KTM)."
    ∧ HResult o = VSS_E_TRANSACTION_THAW_TIMEOUT cfg.
Proof.
  intros Hstore.
  destruct (Hstore (VSS_E_TRANSACTION_THAW_TIMEOUT cfg)
              (Some "The system was unable to thaw the Distributed Transaction Coordinator (DTC) or the Kernel Transaction Manager (KTM).")
              _ _ (this_is_live h))
    as (F & o & Hk & Ho & Hcode & Hmsg).
  eexists _, _, o. split.
  - apply gcnew_run. cbn [ctor_of]. rewrite ctor_delegates. exact Hk.
  - simpl. done.
Qed.

Lemma default_message_and_code_witness :
  ∃ this h' o,
    new (VssException_of win2008_target) win2008_target Default heap_before
      = Some (this, h')
    ∧ objects h' !! this = Some o
    ∧ Message o =
        Some "The system was unable to thaw the Distributed Transaction Coordinator (DTC) or the Kernel Transaction Manager (KTM)."
    ∧ HResult o = VSS_E_TRANSACTION_THAW_TIMEOUT win2008_target.
Proof.
  apply (default_message_and_code (VssException_of win2008_target)
           win2008_target heap_before).
  apply spec_stores_code_and_message.
Defined.

(** C6. Over a base class that carries the code and message it is handed:
    for every text [m], the empty one included, message-only construction
    yields an instance whose message is [m] itself, not the default one, and
    whose code is the fixed constant, the very code of a default-constructed
    instance. *)
Theorem message_only_keeps_code B cfg (m : string) h :
  stores_code_and_message B →
  ∃ this h' o,
    new B cfg (WithMessage (Some m)) h = Some (this, h')
    ∧ objects h' !! this = Some o
    ∧ Message o = Some m
    ∧ HResult o = VSS_E_TRANSACTION_THAW_TIMEOUT cfg
    ∧ ∃ this0 h0 o0,
        new B cfg Default h = Some (this0, h0)
        ∧ objects h0 !! this0 = Some o0
        ∧ HResult o = HResult o0.
Proof.
  intros Hstore.
  destruct (Hstore (VSS_E_TRANSACTION_THAW_TIMEOUT cfg) (Some m)
              _ _ (this_is_live h))
    as (F & o & Hk & Ho & Hcode & Hmsg).
  destruct (Hstore (VSS_E_TRANSACTION_THAW_TIMEOUT cfg)
              (Some "The system was unable to thaw the Distributed Transaction Coordinator (DTC) or the Kernel Transaction Manager (KTM).")
              _ _ (this_is_live h))
    as (F0 & o0 & Hk0 & Ho0 & Hcode0 & _).
  eexists _, _, o. split.
  { apply gcnew_run. cbn [ctor_of]. rewrite ctor_message_delegates. exact Hk. }
  simpl. split; [exact Ho|]. split; [exact Hmsg|]. split; [exact Hcode|].
  eexists _, _, o0. split.
  { apply gcnew_run. cbn [ctor_of]. rewrite ctor_delegates. exact Hk0. }
  simpl. split; [exact Ho0 | congruence].
Qed.

Lemma message_only_keeps_code_witness :
  ∃ this h' o,
    new (VssException_of old_target) old_target
      (WithMessage (Some "")) heap_before = Some (this, h')
    ∧ objects h' !! this = Some o
    ∧ Message o = Some ""
    ∧ HResult o = VSS_E_TRANSACTION_THAW_TIMEOUT old_target
    ∧ ∃ this0 h0 o0,
        new (VssException_of old_target) old_target Default heap_before
          = Some (this0, h0)
        ∧ objects h0 !! this0 = Some o0
        ∧ HResult o = HResult o0.
Proof.
  apply (message_only_keeps_code (VssException_of old_target) old_target
           "" heap_before).
  apply spec_stores_code_and_message.
Defined.

(** C4. Over a base class that carries the message and retains the cause
    it is handed: for every text [m] and every live error object at handle
    [e], construction from [(m, e)] yields an instance whose cause is the
    handle [e] itself and whose message is [m]; the object at [e] is the
    same after the construction as before. *)
Theorem cause_retained B cfg (m : string) (e : loc) h cause :
  stores_message_and_cause B →
  objects h !! e = Some cause →
  ∃ this h' o,
    new B cfg (WithMessageInner (Some m) (Some e)) h = Some (this, h')
    ∧ objects h' !! this = Some o
    ∧ InnerException o = Some e
    ∧ Message o = Some m
    ∧ this ≠ e
    ∧ objects h' !! e = Some cause.
Proof.
  intros Hstore He.
  destruct (Hstore (Some m) (Some e) _ _ (this_is_live h))
    as (F & o & Hk & Ho & Hmsg & Hinner & Hframe).
  assert (e ≠ fresh_loc h) as Hne.
  { intros ->. rewrite fresh_loc_objects in He. done. }
  eexists _, _, o. split.
  { apply gcnew_run. cbn [ctor_of]. rewrite ctor_message_inner_delegates.
    exact Hk. }
  simpl. split; [exact Ho|]. split; [exact Hinner|]. split; [exact Hmsg|].
  split; [done|].
  rewrite (Hframe e Hne), lookup_insert_ne; done.
Qed.

Lemma cause_retained_witness :
  ∃ this h' o,
    new (VssException_of win2008_target) win2008_target
      (WithMessageInner (Some "custom msg") (Some 1%positive)) heap_before
      = Some (this, h')
    ∧ objects h' !! this = Some o
    ∧ InnerException o = Some 1%positive
    ∧ Message o = Some "custom msg"
    ∧ this ≠ 1%positive
    ∧ objects h' !! 1%positive = Some someOtherError.
Proof.
  apply (cause_retained (VssException_of win2008_target) win2008_target
           "custom msg" 1%positive heap_before someOtherError).
  - apply spec_stores_message_and_cause.
  - reflexivity.
Defined.

(** ** Construction as an operation on the heap *)

(** C7. The constructors of this file add no failure of their own: over a
    base class whose constructors do not throw, construction succeeds on
    each of the four paths and for every argument, null message, null
    cause, null container and null context object included, and returns a
    handle to an object of this class. *)
Theorem construction_succeeds B cfg c h :
  never_throws B →
  ∃ this h',
    new B cfg c h = Some (this, h')
    ∧ is_instance h' this = true.
Proof.
  intros HB.
  destruct (ctor_of B cfg c (fresh_loc h)
              (<[fresh_loc h := zero_object]> (objects h))) as [F|] eqn:Hk.
  - eexists _, _. split; [apply gcnew_run, Hk|].
    unfold is_instance. simpl. apply bool_decide_eq_true, lookup_insert_eq.
  - exfalso. destruct HB as (H1 & H2 & H3).
    apply no_failure_of_its_own in Hk
      as [(hr & m & Hn) | [(m & e & Hn) | (i & ctx & Hn)]].
    + destruct (H1 hr m (fresh_loc h)
                  (<[fresh_loc h := zero_object]> (objects h))); congruence.
    + destruct (H2 m e (fresh_loc h)
                  (<[fresh_loc h := zero_object]> (objects h))); congruence.
    + destruct (H3 i ctx (fresh_loc h)
                  (<[fresh_loc h := zero_object]> (objects h))); congruence.
Qed.

Lemma construction_succeeds_witness :
  ∃ this h',
    new (VssException_of old_target) old_target
      (FromSerialized None (mkStreamingContext 0 None)) heap_before
      = Some (this, h')
    ∧ is_instance h' this = true.
Proof.
  apply (construction_succeeds (VssException_of old_target) old_target
           (FromSerialized None (mkStreamingContext 0 None)) heap_before).
  apply spec_never_throws.
Defined.

(** ** Type discrimination *)

(** C9. Whatever the base class does, the handle a construction returns on
    any of the four paths is to an object of the run-time class of this
    file, and the class test tells it from every object of another class,
    an instance of a sibling bound to a different code in particular, which
    keeps its own class. *)
Theorem distinguishable_from_siblings B cfg c h this h' sibling cls :
  new B cfg c h = Some (this, h') →
  types h !! sibling = Some cls →
  cls ≠ class_name →
  is_instance h' this = true
  ∧ is_instance h' sibling = false
  ∧ types h' !! sibling = Some cls
  ∧ this ≠ sibling.
Proof.
  intros Hnew Hsib Hcls.
  apply gcnew_Some in Hnew as (-> & Htypes & _).
  assert (fresh_loc h ≠ sibling) as Hne.
  { intros <-. rewrite fresh_loc_types in Hsib. done. }
  unfold is_instance. rewrite Htypes.
  rewrite lookup_insert_eq, lookup_insert_ne by done.
  split; [by apply bool_decide_eq_true|].
  split; [apply bool_decide_eq_false; congruence|]. done.
Qed.

Lemma distinguishable_from_siblings_witness :
  is_instance heap_wrapped 3%positive = true
  ∧ is_instance heap_wrapped 2%positive = false
  ∧ types heap_wrapped !! 2%positive
    = Some "Alphaleonis.Win32.Vss.VssRebootRequiredException"
  ∧ 3%positive ≠ 2%positive.
Proof.
  apply (distinguishable_from_siblings (VssException_of win2008_target)
           win2008_target
           (WithMessageInner (Some "custom msg") (Some 1%positive))
           heap_before 3%positive heap_wrapped 2%positive
           "Alphaleonis.Win32.Vss.VssRebootRequiredException").
  - vm_compute. reflexivity.
  - reflexivity.
  - vm_compute. discriminate.
Defined.

(** * Further properties of the file *)

(** ** Shared facts *)

Lemma ctor_of_base_part B cfg c h :
  ctor_of B cfg c (fresh_loc h) (<[fresh_loc h := zero_object]> (objects h))
  = base_part B cfg c h.
Proof.
  destruct c; cbn [ctor_of base_part].
  - apply ctor_delegates.
  - apply ctor_message_delegates.
  - apply ctor_message_inner_delegates.
  - apply ctor_info_context_delegates.
Qed.

Lemma new_unfold B cfg c h :
  new B cfg c h =
  F ← base_part B cfg c h;
  Some (fresh_loc h,
        {| types := <[fresh_loc h := class_name]> (types h); objects := F |}).
Proof. unfold new, gcnew. cbv zeta. by rewrite ctor_of_base_part. Qed.

(** Over a base that carries the code it is handed, the two constructors
    that name the constant yield it. *)
Lemma code_of_code_passing_paths B cfg h :
  stores_code_and_message B →
  code_of (new B cfg Default h) = Some (VSS_E_TRANSACTION_THAW_TIMEOUT cfg)
  ∧ ∀ message,
      code_of (new B cfg (WithMessage message) h)
      = Some (VSS_E_TRANSACTION_THAW_TIMEOUT cfg).
Proof.
  intros Hstore. split; [|intros message]; rewrite new_unfold; cbn [base_part].
  - destruct (Hstore (VSS_E_TRANSACTION_THAW_TIMEOUT cfg)
                (Some "The system was unable to thaw the Distributed Transaction Coordinator (DTC) or the Kernel Transaction Manager (KTM).")
                _ _ (this_is_live h)) as (F & o & -> & Ho & <- & _).
    simpl. by rewrite Ho.
  - destruct (Hstore (VSS_E_TRANSACTION_THAW_TIMEOUT cfg) message
                _ _ (this_is_live h)) as (F & o & -> & Ho & <- & _).
    simpl. by rewrite Ho.
Qed.

(** ** Failure *)

(** X1. A construction throws exactly when the base constructor of its
    member-initializer list throws on the new object: the constructors of
    this file neither add a failure nor catch one. When the base
    constructor returns, the construction returns the new handle, and the
    fields of the heap are those the base constructor left. *)
Theorem throws_exactly_when_base_throws B cfg c h :
  (new B cfg c h = None ↔ base_part B cfg c h = None)
  ∧ ∀ F, base_part B cfg c h = Some F →
      ∃ h', new B cfg c h = Some (fresh_loc h, h')
            ∧ objects h' = F
            ∧ is_instance h' (fresh_loc h) = true.
Proof.
  rewrite new_unfold. split.
  - destruct (base_part B cfg c h); simpl; split; congruence.
  - intros F ->. simpl. eexists. split; [reflexivity|]. split; [done|].
    unfold is_instance. simpl. apply bool_decide_eq_true, lookup_insert_eq.
Qed.

(** ** The code and the build *)

(** X2. On a target of the Windows 2008 class or later the fallback is not
    in effect: over a base class that carries the code it is handed,
    default and message-only construction yield instances whose code is the
    SDK's own value of the constant, for every message. *)
Theorem sdk_value_on_newer_targets B cfg message h :
  ALPHAVSS_TARGET_WIN2008 cfg ≤ ALPHAVSS_TARGET cfg →
  stores_code_and_message B →
  VSS_E_TRANSACTION_THAW_TIMEOUT cfg = sdk_VSS_E_TRANSACTION_THAW_TIMEOUT cfg
  ∧ code_of (new B cfg Default h)
    = Some (sdk_VSS_E_TRANSACTION_THAW_TIMEOUT cfg)
  ∧ code_of (new B cfg (WithMessage message) h)
    = Some (sdk_VSS_E_TRANSACTION_THAW_TIMEOUT cfg).
Proof.
  intros Hnew Hstore.
  assert (VSS_E_TRANSACTION_THAW_TIMEOUT cfg
          = sdk_VSS_E_TRANSACTION_THAW_TIMEOUT cfg) as Hmacro.
  { unfold VSS_E_TRANSACTION_THAW_TIMEOUT.
    destruct (Z.ltb_spec (ALPHAVSS_TARGET cfg) (ALPHAVSS_TARGET_WIN2008 cfg));
      [lia | reflexivity]. }
  destruct (code_of_code_passing_paths B cfg h Hstore) as [Hd Hm].
  rewrite <- Hmacro. auto.
Qed.

Lemma sdk_value_on_newer_targets_witness :
  VSS_E_TRANSACTION_THAW_TIMEOUT win2008_target
  = sdk_VSS_E_TRANSACTION_THAW_TIMEOUT win2008_target
  ∧ code_of (new (VssException_of win2008_target) win2008_target
               Default heap_before)
    = Some (sdk_VSS_E_TRANSACTION_THAW_TIMEOUT win2008_target)
  ∧ code_of (new (VssException_of win2008_target) win2008_target
               (WithMessage (Some "custom msg")) heap_before)
    = Some (sdk_VSS_E_TRANSACTION_THAW_TIMEOUT win2008_target).
Proof.
  apply (sdk_value_on_newer_targets (VssException_of win2008_target)
           win2008_target (Some "custom msg") heap_before).
  - simpl. lia.
  - apply spec_stores_code_and_message.
Defined.

(** X3. Only the two constructors that name the constant follow the build.
    Take one base class and two builds whose constants differ. Default
    construction yields different codes in the two builds. Construction
    from a message and a cause, and reconstruction from serialized state,
    run the same way in both: this file hands the base no code on those
    paths, so the instance cannot carry the constant of both builds. *)
Theorem only_code_passing_paths_follow_the_build
    B cfg cfg' message inner info context h :
  stores_code_and_message B →
  VSS_E_TRANSACTION_THAW_TIMEOUT cfg ≠ VSS_E_TRANSACTION_THAW_TIMEOUT cfg' →
  code_of (new B cfg Default h) ≠ code_of (new B cfg' Default h)
  ∧ new B cfg (WithMessageInner message inner) h
    = new B cfg' (WithMessageInner message inner) h
  ∧ new B cfg (FromSerialized info context) h
    = new B cfg' (FromSerialized info context) h
  ∧ (code_of (new B cfg (WithMessageInner message inner) h)
       ≠ Some (VSS_E_TRANSACTION_THAW_TIMEOUT cfg)
     ∨ code_of (new B cfg' (WithMessageInner message inner) h)
       ≠ Some (VSS_E_TRANSACTION_THAW_TIMEOUT cfg')).
Proof.
  intros Hstore Hdiff.
  destruct (code_of_code_passing_paths B cfg h Hstore) as [Hd _].
  destruct (code_of_code_passing_paths B cfg' h Hstore) as [Hd' _].
  split; [rewrite Hd, Hd'; congruence|].
  split; [reflexivity|]. split; [reflexivity|].
  change (new B cfg' (WithMessageInner message inner) h)
    with (new B cfg (WithMessageInner message inner) h).
  destruct (decide (code_of (new B cfg (WithMessageInner message inner) h)
                    = Some (VSS_E_TRANSACTION_THAW_TIMEOUT cfg))) as [->|Hne].
  - right. congruence.
  - by left.
Qed.

Lemma only_code_passing_paths_follow_the_build_witness :
  code_of (new (VssException_of win2008_target) old_target Default heap_before)
    ≠ code_of (new (VssException_of win2008_target) win2008_target
                 Default heap_before)
  ∧ new (VssException_of win2008_target) old_target
      (WithMessageInner (Some "custom msg") (Some 1%positive)) heap_before
    = new (VssException_of win2008_target) win2008_target
        (WithMessageInner (Some "custom msg") (Some 1%positive)) heap_before
  ∧ new (VssException_of win2008_target) old_target
      (FromSerialized (Some (serialize someOtherError))
         (mkStreamingContext 0 None)) heap_before
    = new (VssException_of win2008_target) win2008_target
        (FromSerialized (Some (serialize someOtherError))
           (mkStreamingContext 0 None)) heap_before
  ∧ (code_of (new (VssException_of win2008_target) old_target
                (WithMessageInner (Some "custom msg") (Some 1%positive))
                heap_before)
       ≠ Some (VSS_E_TRANSACTION_THAW_TIMEOUT old_target)
     ∨ code_of (new (VssException_of win2008_target) win2008_target
                  (WithMessageInner (Some "custom msg") (Some 1%positive))
                  heap_before)
       ≠ Some (VSS_E_TRANSACTION_THAW_TIMEOUT win2008_target)).
Proof.
  apply (only_code_passing_paths_follow_the_build
           (VssException_of win2008_target) old_target win2008_target
           (Some "custom msg") (Some 1%positive)
           (Some (serialize someOtherError)) (mkStreamingContext 0 None)
           heap_before).
  - apply spec_stores_code_and_message.
  - vm_compute. discriminate.
Defined.

(** ** Null arguments *)

(** X4. A null message is handed on as it is: over a base class that
    carries what it is handed, message-only construction with a null
    message yields an instance with a null message, not the default text of
    the parameterless constructor, and with the fixed code; construction
    from a null message and a null cause yields an instance with neither. *)
Theorem null_arguments_are_forwarded B cfg h :
  stores_code_and_message B →
  stores_message_and_cause B →
  (∃ this h' o,
     new B cfg (WithMessage None) h = Some (this, h')
     ∧ objects h' !! this = Some o
     ∧ Message o = None
     ∧ HResult o = VSS_E_TRANSACTION_THAW_TIMEOUT cfg)
  ∧ (∃ this h' o,
       new B cfg (WithMessageInner None None) h = Some (this, h')
       ∧ objects h' !! this = Some o
       ∧ Message o = None
       ∧ InnerException o = None)
  ∧ (∃ this h' o,
       new B cfg Default h = Some (this, h')
       ∧ objects h' !! this = Some o
       ∧ Message o ≠ None).
Proof.
  intros Hcm Hmc. split; [|split].
  - destruct (Hcm (VSS_E_TRANSACTION_THAW_TIMEOUT cfg) None
                _ _ (this_is_live h)) as (F & o & Hk & Ho & Hcode & Hmsg).
    eexists _, _, o. rewrite new_unfold. cbn [base_part]. rewrite Hk.
    simpl. done.
  - destruct (Hmc None None _ _ (this_is_live h))
      as (F & o & Hk & Ho & Hmsg & Hinner & _).
    eexists _, _, o. rewrite new_unfold. cbn [base_part]. rewrite Hk.
    simpl. done.
  - destruct (Hcm (VSS_E_TRANSACTION_THAW_TIMEOUT cfg)
                (Some "The system was unable to thaw the Distributed Transaction Coordinator (DTC) or the Kernel Transaction Manager (KTM).")
                _ _ (this_is_live h)) as (F & o & Hk & Ho & Hcode & Hmsg).
    eexists _, _, o. rewrite new_unfold. cbn [base_part]. rewrite Hk.
    simpl. split; [done|]. split; [done|]. by rewrite Hmsg.
Qed.

Lemma null_arguments_are_forwarded_witness :
  (∃ this h' o,
     new (VssException_of old_target) old_target (WithMessage None)
       heap_before = Some (this, h')
     ∧ objects h' !! this = Some o
     ∧ Message o = None
     ∧ HResult o = VSS_E_TRANSACTION_THAW_TIMEOUT old_target)
  ∧ (∃ this h' o,
       new (VssException_of old_target) old_target
         (WithMessageInner None None) heap_before = Some (this, h')
       ∧ objects h' !! this = Some o
       ∧ Message o = None
       ∧ InnerException o = None)
  ∧ (∃ this h' o,
       new (VssException_of old_target) old_target Default heap_before
         = Some (this, h')
       ∧ objects h' !! this = Some o
       ∧ Message o ≠ None).
Proof.
  apply (null_arguments_are_forwarded (VssException_of old_target)
           old_target heap_before).
  - apply spec_stores_code_and_message.
  - apply spec_stores_message_and_cause.
Defined.

(** ** The macro table *)

(** X5. Where the constructors are compiled, the name of the constant is
    defined on every older target, as [E_UNEXPECTED], whether or not the
    included headers define it; on the other targets the file defines
    nothing, so the name is defined there exactly when the headers define
    it. No other macro is touched before the class. *)
Theorem constant_at_the_constructors cfg (M : macro_table) :
  (ALPHAVSS_TARGET cfg < ALPHAVSS_TARGET_WIN2008 cfg →
   macros_at_constructors cfg M !! "VSS_E_TRANSACTION_THAW_TIMEOUT"
   = Some "E_UNEXPECTED")
  ∧ (ALPHAVSS_TARGET_WIN2008 cfg ≤ ALPHAVSS_TARGET cfg →
     macros_at_constructors cfg M = M)
  ∧ (is_Some (macros_at_constructors cfg M !! "VSS_E_TRANSACTION_THAW_TIMEOUT")
     ↔ ALPHAVSS_TARGET cfg < ALPHAVSS_TARGET_WIN2008 cfg
       ∨ is_Some (M !! "VSS_E_TRANSACTION_THAW_TIMEOUT"))
  ∧ ∀ other, other ≠ "VSS_E_TRANSACTION_THAW_TIMEOUT" →
      macros_at_constructors cfg M !! other = M !! other.
Proof.
  unfold macros_at_constructors, if_older_target.
  destruct (Z.ltb_spec (ALPHAVSS_TARGET cfg) (ALPHAVSS_TARGET_WIN2008 cfg))
    as [Hold|Hnew]; simpl.
  - split; [intros _; apply lookup_insert_eq|].
    split; [intros; lia|].
    split.
    + rewrite lookup_insert_eq. split; [auto | by eexists].
    + intros other Hne. by rewrite lookup_insert_ne.
  - split; [intros; lia|]. split; [done|].
    split; [|done]. split; [auto | intros [?|?]; [lia | done]].
Qed.

(** X6. On an older target the [#undef] that closes the file does not take
    back the definition the file made: at the end of the translation unit
    the name of the constant is still defined as [E_UNEXPECTED], the name
    [VSS_E_REBOOT_REQUIRED] is undefined even if the headers defined it,
    and every other macro is as the headers left it. *)
Theorem closing_undef_keeps_the_constant cfg (M : macro_table) :
  ALPHAVSS_TARGET cfg < ALPHAVSS_TARGET_WIN2008 cfg →
  macros_at_end_of_file cfg M !! "VSS_E_TRANSACTION_THAW_TIMEOUT"
  = Some "E_UNEXPECTED"
  ∧ macros_at_end_of_file cfg M !! "VSS_E_REBOOT_REQUIRED" = None
  ∧ ∀ other,
      other ≠ "VSS_E_TRANSACTION_THAW_TIMEOUT" →
      other ≠ "VSS_E_REBOOT_REQUIRED" →
      macros_at_end_of_file cfg M !! other = M !! other.
Proof.
  intros Hold.
  unfold macros_at_end_of_file, macros_at_constructors, if_older_target.
  destruct (Z.ltb_spec (ALPHAVSS_TARGET cfg) (ALPHAVSS_TARGET_WIN2008 cfg))
    as [_|Hnew]; [|lia]. simpl.
  split; [by rewrite lookup_delete_ne, lookup_insert_eq|].
  split; [apply lookup_delete_eq|].
  intros other Hthaw Hreboot.
  by rewrite lookup_delete_ne, lookup_insert_ne.
Qed.

Lemma closing_undef_keeps_the_constant_witness :
  macros_at_end_of_file old_target sdk_macros
    !! "VSS_E_TRANSACTION_THAW_TIMEOUT" = Some "E_UNEXPECTED"
  ∧ macros_at_end_of_file old_target sdk_macros
      !! "VSS_E_REBOOT_REQUIRED" = None
  ∧ ∀ other,
      other ≠ "VSS_E_TRANSACTION_THAW_TIMEOUT" →
      other ≠ "VSS_E_REBOOT_REQUIRED" →
      macros_at_end_of_file old_target sdk_macros !! other
      = sdk_macros !! other.
Proof.
  apply (closing_undef_keeps_the_constant old_target sdk_macros).
  simpl. lia.
Defined.

(** X7. On a target of the Windows 2008 class or later both conditional
    groups are skipped: the file defines and undefines nothing, so the macro
    table at its end is the one the headers left, [VSS_E_REBOOT_REQUIRED]
    included. On every target the closing group leaves the constant alone:
    its binding at the end of the file is its binding at the constructors. *)
Theorem newer_targets_keep_the_macro_table cfg (M : macro_table) :
  (ALPHAVSS_TARGET_WIN2008 cfg ≤ ALPHAVSS_TARGET cfg →
   macros_at_end_of_file cfg M = M)
  ∧ macros_at_end_of_file cfg M !! "VSS_E_TRANSACTION_THAW_TIMEOUT"
    = macros_at_constructors cfg M !! "VSS_E_TRANSACTION_THAW_TIMEOUT".
Proof.
  unfold macros_at_end_of_file, macros_at_constructors, if_older_target.
  destruct (Z.ltb_spec (ALPHAVSS_TARGET cfg) (ALPHAVSS_TARGET_WIN2008 cfg))
    as [Hold|Hnew]; simpl.
  - split; [intros; lia|]. by rewrite lookup_delete_ne.
  - done.
Qed.


(** * The code on the paths that pass none, and reconstruction *)

Lemma storing_stores_code_and_message :
  stores_code_and_message VssException_storing.
Proof.
  intros hr message this F [o Ho]. simpl. unfold spec_hr_message.
  eexists _, _. split; [reflexivity|].
  rewrite lookup_alter_eq, Ho. done.
Qed.

(** What a construction over the storing base leaves at the new handle. *)
Lemma new_storing cfg c h :
  new VssException_storing cfg c h
  = Some (fresh_loc h,
          {| types := <[fresh_loc h := class_name]> (types h);
             objects :=
               <[fresh_loc h :=
                   match c with
                   | Default =>
                       mkException (VSS_E_TRANSACTION_THAW_TIMEOUT cfg)
                         (Some "The system was unable to thaw the Distributed Transaction Coordinator (DTC) or the Kernel Transaction Manager (KTM).")
                         None
                   | WithMessage m =>
                       mkException (VSS_E_TRANSACTION_THAW_TIMEOUT cfg) m None
                   | WithMessageInner m e => mkException 0 m e
                   | FromSerialized (Some i) _ =>
                       mkException (si_HResult i) (si_Message i)
                         (si_InnerException i)
                   | FromSerialized None _ => zero_object
                   end]> (objects h) |}).
Proof.
  rewrite new_unfold.
  destruct c as [|m|m e|[i|] ctx]; cbn [base_part]; simpl;
    unfold spec_hr_message, storing_message_inner, storing_info_context;
    simpl; by rewrite alter_insert_eq.
Qed.




(** C10. Over a base class that carries the code and message it is
    handed, message-only construction with exactly the default text yields
    an instance, with the fixed code and that text as its message, and
    default construction from the same heap yields an instance with the
    same code and the same message: the two constructions have the same
    outcome, handle and heap included. *)
Theorem default_is_message_only B cfg h :
  stores_code_and_message B →
  ∃ this h' o this0 h0 o0,
    new B cfg
      (WithMessage (Some "The system was unable to thaw the Distributed Transaction Coordinator (DTC) or the Kernel Transaction Manager (KTM)."))
      h = Some (this, h')
    ∧ objects h' !! this = Some o
    ∧ new B cfg Default h = Some (this0, h0)
    ∧ objects h0 !! this0 = Some o0
    ∧ HResult o = HResult o0
    ∧ Message o = Message o0
    ∧ HResult o = VSS_E_TRANSACTION_THAW_TIMEOUT cfg
    ∧ Message o =
        Some "The system was unable to thaw the Distributed Transaction Coordinator (DTC) or the Kernel Transaction Manager (KTM)."
    ∧ this = this0
    ∧ h' = h0.
Proof.
  intros Hstore.
  destruct (Hstore (VSS_E_TRANSACTION_THAW_TIMEOUT cfg)
              (Some "The system was unable to thaw the Distributed Transaction Coordinator (DTC) or the Kernel Transaction Manager (KTM).")
              _ _ (this_is_live h)) as (F & o & Hk & Ho & Hcode & Hmsg).
  assert (new B cfg Default h
          = Some (fresh_loc h,
                  {| types := <[fresh_loc h := class_name]> (types h);
                     objects := F |})) as Hdefault.
  { rewrite new_unfold. cbn [base_part]. by rewrite Hk. }
  assert (new B cfg
            (WithMessage (Some "The system was unable to thaw the Distributed Transaction Coordinator (DTC) or the Kernel Transaction Manager (KTM)."))
            h
          = Some (fresh_loc h,
                  {| types := <[fresh_loc h := class_name]> (types h);
                     objects := F |})) as Hmessage.
  { rewrite new_unfold. cbn [base_part]. by rewrite Hk. }
  eexists _, _, o, _, _, o.
  split; [exact Hmessage|]. split; [exact Ho|].
  split; [exact Hdefault|]. split; [exact Ho|]. done.
Qed.

Lemma default_is_message_only_witness :
  ∃ this h' o this0 h0 o0,
    new VssException_storing old_target
      (WithMessage (Some "The system was unable to thaw the Distributed Transaction Coordinator (DTC) or the Kernel Transaction Manager (KTM)."))
      heap_before = Some (this, h')
    ∧ objects h' !! this = Some o
    ∧ new VssException_storing old_target Default heap_before
      = Some (this0, h0)
    ∧ objects h0 !! this0 = Some o0
    ∧ HResult o = HResult o0
    ∧ Message o = Message o0
    ∧ HResult o = VSS_E_TRANSACTION_THAW_TIMEOUT old_target
    ∧ Message o =
        Some "The system was unable to thaw the Distributed Transaction Coordinator (DTC) or the Kernel Transaction Manager (KTM)."
    ∧ this = this0
    ∧ h' = h0.
Proof.
  apply (default_is_message_only VssException_storing old_target heap_before).
  apply storing_stores_code_and_message.
Defined.

(** C3. With serialization and the base class as the specification
    describes them (the container receives the instance's code, message
    and cause, and reconstruction restores them): a default-constructed
    instance has the fixed code and the default message, and serializing it
    and reconstructing it through the constructor of this file, in whatever
    heap and with whatever context token, yields an instance of this class
    with that same code and that same message. *)
Theorem default_instance_roundtrip cfg h context h2 :
  ∃ this h' o this2 h2' o2,
    new VssException_storing cfg Default h = Some (this, h')
    ∧ objects h' !! this = Some o
    ∧ HResult o = VSS_E_TRANSACTION_THAW_TIMEOUT cfg
    ∧ Message o =
        Some "The system was unable to thaw the Distributed Transaction Coordinator (DTC) or the Kernel Transaction Manager (KTM)."
    ∧ new VssException_storing cfg
        (FromSerialized (Some (serialize o)) context) h2 = Some (this2, h2')
    ∧ objects h2' !! this2 = Some o2
    ∧ is_instance h2' this2 = true
    ∧ HResult o2 = HResult o
    ∧ Message o2 = Message o.
Proof.
  eexists _, _, _, _, _, _.
  split; [apply new_storing|]. simpl.
  split; [apply lookup_insert_eq|]. split; [reflexivity|].
  split; [reflexivity|].
  split; [apply new_storing|]. simpl.
  split; [apply lookup_insert_eq|].
  split; [|done].
  unfold is_instance. simpl. apply bool_decide_eq_true, lookup_insert_eq.
Qed.
